(** * D3AttentionGraph: the render pass of the attention-graph component

    A shallow embedding of [renderGraph] from
    [components/d3_attention_graph/frontend/src/D3AttentionGraph.tsx].

    - JavaScript numbers that carry pixel values and weights are IEEE
      binary64 values: Rocq's primitive [float].
    - Layer and token indices and the two grid sizes are integers ([Z]);
      the loops compare and increment them, and [===] on them is [Z.eqb].
    - [tokens?: string[]] is an [option (list string)]; an array read past
      its end is JavaScript's [undefined], so a label is an [option string].
    - The SVG element behind [svgRef] is the list of its child elements;
      [svgRef.current === null] is [None].
    - [d3.scaleLinear] is library code; the render pass is stated over an
      arbitrary scale (a section variable).

    Beside [renderGraph] the development covers the lifecycle methods of
    the class ([componentDidMount], [componentDidUpdate]), the effect of
    the function component that replaced it, and the state and view of the
    hosting page [App]. *)

From Stdlib Require Import String Ascii DecimalString Floats.
From Stdlib Require Import ZArith Bool Lia List.
From Stdlib Require DecimalPos DecimalZ.
Import ListNotations.
Open Scope string_scope.
Open Scope list_scope.
Open Scope Z_scope.

Set Warnings "-register-all,-inexact-float".

(** ** JavaScript values *)

Definition Number := float.
Bind Scope float_scope with Number.

(** The number whose value is the integer [z] (exact below 2^53 in absolute
    value, which covers every index and pixel size the component sees). *)
Definition Number_of_Z (z : Z) : Number :=
  if z <? 0
  then PrimFloat.opp (PrimFloat.of_uint63 (Uint63.of_Z (- z)))
  else PrimFloat.of_uint63 (Uint63.of_Z z).

(** String conversion of an integer-valued number inside a template
    literal: decimal digits, a leading minus sign when negative. *)
Definition string_of_Z (z : Z) : string :=
  NilZero.string_of_int (Z.to_int z).

(** String conversion of a possibly [undefined] string inside a template
    literal. *)
Definition string_of_label (s : option string) : string :=
  match s with
  | Some s => s
  | None => "undefined"
  end.

(** [for (let i = 0; i < n; i++)]: the values [i] takes, in order. *)
Definition indices (n : Z) : list Z :=
  map Z.of_nat (seq 0 (Z.to_nat n)).

Definition for_upto {S : Type} (n : Z) (body : Z -> S -> S) (s : S) : S :=
  fold_left (fun acc i => body i acc) (indices n) s.

(** [Array.prototype.push] of one element. *)
Definition push {A : Type} (a : list A) (v : A) : list A := a ++ [v].

(** [Array.prototype.forEach] with a callback that updates state [S]. *)
Definition forEach {A S : Type} (a : list A) (f : A -> S -> S) (s : S) : S :=
  fold_left (fun acc v => f v acc) a s.

(** [a[i]] on an array: [undefined] outside [0 .. length-1]. *)
Definition array_get {A : Type} (a : list A) (i : Z) : option A :=
  if i <? 0 then None else nth_error a (Z.to_nat i).

(** ** Data model (the interfaces of the source file) *)

Record Node := mkNode {
  layer : Z;
  token : Z;
  x : Number;
  y : Number;
  label : option string
}.

Record AttentionPattern := mkAttentionPattern {
  sourceLayer : Z;
  sourceToken : Z;
  destLayer : Z;
  destToken : Z;
  weight : Number;
  head : Z
}.

Record GraphData := mkGraphData {
  numLayers : Z;
  numTokens : Z;
  tokens : option (list string);
  attentionPatterns : list AttentionPattern
}.

Record State := mkState {
  data : option GraphData;
  width : Number;
  height : Number
}.

(** ** The drawing surface *)

Inductive Element :=
| SvgG (transform : string) (children : list Element)
| SvgCircle (cx cy r : Number) (fill : string)
| SvgText (tx ty : Number) (text_anchor font_size : string) (content : string)
| SvgLine (x1 y1 x2 y2 : Number) (stroke : string)
          (stroke_width opacity : Number).

(** The component instance: its React state and the children of the SVG
    element its ref points to ([None]: no element attached). *)
Record Component := mkComponent {
  state : State;
  svgRef : option (list Element)
}.

Module margin.
Definition top : Z := 20.
Definition right : Z := 20.
Definition bottom : Z := 20.
Definition left : Z := 20.
End margin.

(** [d3.select(svg).selectAll("*").remove()]: every descendant element is
    detached, the SVG element is left without children. *)
Definition remove_all (svg : list Element) : list Element := [].

Section Render.

(** [d3.scaleLinear().domain([d0, d1]).range([r0, r1])], applied to a
    number. *)
Variable scaleLinear : Number -> Number -> Number -> Number -> Number -> Number.

Definition innerWidth (width : Number) : Number :=
  (width - Number_of_Z margin.left - Number_of_Z margin.right)%float.

Definition innerHeight (height : Number) : Number :=
  (height - Number_of_Z margin.top - Number_of_Z margin.bottom)%float.

Definition xScale (d : GraphData) (width : Number) (t : Z) : Number :=
  scaleLinear (Number_of_Z 0) (Number_of_Z (numTokens d - 1))
              (Number_of_Z 0) (innerWidth width) (Number_of_Z t).

Definition yScale (d : GraphData) (height : Number) (l : Z) : Number :=
  scaleLinear (Number_of_Z 0) (Number_of_Z (numLayers d - 1))
              (Number_of_Z 0) (innerHeight height) (Number_of_Z l).

(** [tokens ? tokens[t] : `T${t}`]: an array, even an empty one, is
    truthy. *)
Definition nodeLabel (d : GraphData) (t : Z) : option string :=
  match tokens d with
  | Some ts => array_get ts t
  | None => Some ("T" ++ string_of_Z t)%string
  end.

Definition nodeAt (d : GraphData) (width height : Number) (l t : Z) : Node :=
  {| layer := l;
     token := t;
     x := xScale d width t;
     y := yScale d height l;
     label := nodeLabel d t |}.

(** Lines 107-118: the node array, filled by the two nested loops. *)
Definition buildNodes (d : GraphData) (width height : Number) : list Node :=
  for_upto (numLayers d) (fun l nodes =>
    for_upto (numTokens d) (fun t nodes =>
      push nodes (nodeAt d width height l t)) nodes) [].

Definition drawCircle (n : Node) : Element :=
  SvgCircle (x n) (y n) 5%float "#e5e7eb".

Definition drawLabel (n : Node) : Element :=
  SvgText (x n) (y n - 10)%float "middle" "12px"
          ("L" ++ string_of_Z (layer n) ++ "-" ++ string_of_label (label n))%string.

(** [nodes.find(n => n.layer === l && n.token === t)]. *)
Definition findNode (nodes : list Node) (l t : Z) : option Node :=
  find (fun n => (layer n =? l) && (token n =? t)) nodes.

(** The body of the [forEach] callback (lines 143-155), acting on the
    children of the group. *)
Definition drawEdge (nodes : list Node) (pattern : AttentionPattern)
           (g : list Element) : list Element :=
  let source := findNode nodes (sourceLayer pattern) (sourceToken pattern) in
  let target := findNode nodes (destLayer pattern) (destToken pattern) in
  match source, target with
  | Some source, Some target =>
      push g (SvgLine (x source) (y source) (x target) (y target)
                      "#3B82F6"
                      (weight pattern * 2)%float
                      (weight pattern))
  | _, _ => g
  end.

Definition groupTransform : string :=
  ("translate(" ++ string_of_Z margin.left ++ "," ++
                   string_of_Z margin.top ++ ")")%string.

(** The children of the main group once the pass is over: a fresh group
    starts empty, the two data joins enter one element per node, then the
    edges are appended in input order. *)
Definition drawGroup (d : GraphData) (width height : Number) : list Element :=
  let nodes := buildNodes d width height in
  let g := [] in
  let g := g ++ map drawCircle nodes in
  let g := g ++ map drawLabel nodes in
  forEach (attentionPatterns d) (drawEdge nodes) g.

(** [renderGraph()] (lines 79-157). *)
Definition renderGraph (c : Component) : Component :=
  match data (state c), svgRef c with
  | Some d, Some svg =>
      let svg := remove_all svg in
      let g := drawGroup d (width (state c)) (height (state c)) in
      {| state := state c;
         svgRef := Some (push svg (SvgG groupTransform g)) |}
  | _, _ => c
  end.

(** *** The loops as list expressions *)

(** What one edge adds to the group: one line, or nothing. *)
Definition edgeLines (nodes : list Node) (pattern : AttentionPattern)
  : list Element :=
  drawEdge nodes pattern [].

(** The grid in row-major order, as a list expression. *)
Definition gridNodes (d : GraphData) (width height : Number) : list Node :=
  flat_map (fun l => map (nodeAt d width height l) (indices (numTokens d)))
           (indices (numLayers d)).

(** The line an edge with both endpoints in the grid is drawn as. *)
Definition edgeLine (d : GraphData) (w h : Number) (p : AttentionPattern)
  : Element :=
  SvgLine (xScale d w (sourceToken p)) (yScale d h (sourceLayer p))
          (xScale d w (destToken p)) (yScale d h (destLayer p))
          "#3B82F6" (weight p * 2)%float (weight p).

End Render.

(** ** Vocabulary of the properties *)

(** The [(layer, token)] pair of each node, in array order. *)
Definition keys (nodes : list Node) : list (Z * Z) :=
  map (fun n => (layer n, token n)) nodes.

(** The pair [(l, t)] lies in [[0,numLayers) x [0,numTokens)]. *)
Definition inGrid (d : GraphData) (l t : Z) : Prop :=
  0 <= l < numLayers d /\ 0 <= t < numTokens d.

(** Both endpoints of an edge lie in the grid. *)
Definition resolves (d : GraphData) (p : AttentionPattern) : Prop :=
  inGrid d (sourceLayer p) (sourceToken p) /\
  inGrid d (destLayer p) (destToken p).

(** Two edges that differ at most in their [head] field. *)
Definition sameExceptHead (p q : AttentionPattern) : Prop :=
  sourceLayer p = sourceLayer q /\ sourceToken p = sourceToken q /\
  destLayer p = destLayer q /\ destToken p = destToken q /\
  weight p = weight q.

(** Two datasets that differ at most in the [head] fields of their edges. *)
Definition sameDataExceptHead (d e : GraphData) : Prop :=
  numLayers d = numLayers e /\ numTokens d = numTokens e /\
  tokens d = tokens e /\
  Forall2 sameExceptHead (attentionPatterns d) (attentionPatterns e).

(** The elements a pass has put on the surface, the group unwrapped. *)
Definition drawn (c : Component) : list Element :=
  match svgRef c with
  | Some [SvgG _ g] => g
  | _ => []
  end.

Definition strokeWidthOf (e : Element) : option Number :=
  match e with SvgLine _ _ _ _ _ sw _ => Some sw | _ => None end.

Definition opacityOf (e : Element) : option Number :=
  match e with SvgLine _ _ _ _ _ _ o => Some o | _ => None end.

Definition contentOf (e : Element) : option string :=
  match e with SvgText _ _ _ _ s => Some s | _ => None end.

Definition isCircle (e : Element) : bool :=
  match e with SvgCircle _ _ _ _ => true | _ => false end.

Definition isText (e : Element) : bool :=
  match e with SvgText _ _ _ _ _ => true | _ => false end.

Definition isLine (e : Element) : bool :=
  match e with SvgLine _ _ _ _ _ _ _ => true | _ => false end.

(** ** Linear scales

    [d3.scaleLinear] belongs to the d3-scale library, not to this
    repository.  The two functions below follow the shape of its
    two-point continuous scale (normalise the input over the domain, then
    interpolate over the range) and differ only in what a collapsed domain
    [d0 = d1] normalises to: the difference itself ([0], so the scale
    yields the start of the range; the convention of d3-scale 1.x), or one
    half (the middle of the range; the convention of later releases).
    They instantiate the scale of the render pass in closed examples. *)

Module D3.

(** A number is falsy when it is [0], [-0] or [NaN]. *)
Definition truthy (b : Number) : bool :=
  negb (PrimFloat.eqb b 0) && negb (PrimFloat.is_nan b).

Definition normalize (collapsed : Number -> Number) (a b v : Number)
  : Number :=
  let b := (b - a)%float in
  if truthy b then ((v - a) / b)%float else collapsed b.

Definition interpolateNumber (a b t : Number) : Number :=
  (a * (1 - t) + b * t)%float.

Definition bimap (collapsed : Number -> Number)
           (d0 d1 r0 r1 v : Number) : Number :=
  if PrimFloat.ltb d1 d0
  then interpolateNumber r1 r0 (normalize collapsed d1 d0 v)
  else interpolateNumber r0 r1 (normalize collapsed d0 d1 v).

Definition scaleLinear_start : Number -> Number -> Number -> Number -> Number -> Number :=
  bimap (fun b => b).

Definition scaleLinear_mid : Number -> Number -> Number -> Number -> Number -> Number :=
  bimap (fun b => if PrimFloat.is_nan b then PrimFloat.nan else 0.5%float).

End D3.

(** ** Vocabulary of the further properties *)

Definition inGridb (d : GraphData) (l t : Z) : bool :=
  (0 <=? l) && (l <? numLayers d) && (0 <=? t) && (t <? numTokens d).

Definition resolvesb (d : GraphData) (p : AttentionPattern) : bool :=
  inGridb d (sourceLayer p) (sourceToken p) &&
  inGridb d (destLayer p) (destToken p).

(** No character of the string is a minus sign. *)
Fixpoint dashFree (s : string) : bool :=
  match s with
  | EmptyString => true
  | String c s => negb (Ascii.eqb c "-") && dashFree s
  end.

(** ** The lifecycle methods of the class component *)

(** [ComponentArgs] and [Props] (lines 39-50 of the class file). *)
Module Args.
Record ComponentArgs := mkComponentArgs {
  data : GraphData;
  width : Number;
  height : Number
}.
End Args.

Module Props.
Record Props := mkProps {
  args : option Args.ComponentArgs;
  data : option GraphData;
  width : option Number;
  height : option Number
}.
End Props.

(** The state record keeps numbers: a [width] or [height] that is
    [undefined] is stored as [NaN], the value [undefined] takes in the
    subtractions of [renderGraph], the only place the state's size is read
    in this development. *)
Definition Number_of_undefined (v : option Number) : Number :=
  match v with
  | Some v => v
  | None => PrimFloat.nan
  end.

(** [const { data, width, height } = this.props.args || this.props]: an
    object is truthy, so [args] wins as a whole whenever it is there. *)
Definition propsSource (p : Props.Props)
  : option GraphData * option Number * option Number :=
  match Props.args p with
  | Some a => (Some (Args.data a), Some (Args.width a), Some (Args.height a))
  | None => (Props.data p, Props.width p, Props.height p)
  end.

(** The initial state of the class (lines 60-64). *)
Definition initialState : State :=
  {| data := None; width := 1000; height := 700 |}.

(** [componentDidMount] (lines 66-70): [setState({ width, height })]
    merges, [data] stays. *)
Definition componentDidMount (p : Props.Props) (c : Component) : Component :=
  let '(_, w, h) := propsSource p in
  {| state := {| data := data (state c);
                 width := Number_of_undefined w;
                 height := Number_of_undefined h |};
     svgRef := svgRef c |}.

Section Lifecycle.

Variable scaleLinear : Number -> Number -> Number -> Number -> Number -> Number.

(** [componentDidUpdate] (lines 72-77): the three fields are stored, then
    the callback draws. *)
Definition componentDidUpdate (p : Props.Props) (c : Component) : Component :=
  let '(d, w, h) := propsSource p in
  renderGraph scaleLinear
    {| state := {| data := d;
                   width := Number_of_undefined w;
                   height := Number_of_undefined h |};
       svgRef := svgRef c |}.

(** A run of updates, one per value of the props. *)
Definition updates (ps : list Props.Props) (c : Component) : Component :=
  fold_left (fun c p => componentDidUpdate p c) ps c.

End Lifecycle.

(** ** The function component (the second version of the file) *)

Module FC.

(** [Props.args]. The type says [data: GraphData]; the effect still
    guards against a missing one, so the field is optional here. *)
Record Args := mkArgs {
  data : option GraphData;
  width : Number;
  height : Number
}.

Section Effect.

Variable scaleLinear : Number -> Number -> Number -> Number -> Number -> Number.

(** The body of the effect: what it makes of the children of the SVG
    element behind [svgRef]. *)
Definition effect (args : Args) (svgRef : option (list Element))
  : option (list Element) :=
  match data args, svgRef with
  | Some d, Some svg =>
      let svg := remove_all svg in
      let nodes := buildNodes scaleLinear d (width args) (height args) in
      let g := [] in
      let g := g ++ map drawCircle nodes in
      let g := g ++ map drawLabel nodes in
      let g := forEach (attentionPatterns d) (drawEdge nodes) g in
      Some (push svg (SvgG groupTransform g))
  | _, _ => svgRef
  end.

End Effect.

End FC.

(** ** The hosting page ([App]) *)

Module App.

(** The two pieces of state: [data] and [loading]. *)
Record AppState := mkAppState {
  data : option GraphData;
  loading : bool
}.

Definition initial : AppState := {| data := None; loading := true |}.

(** How the promise chain of the fetch settles: with the decoded JSON
    (which may be [null]), or rejected (network error, undecodable body). *)
Inductive Settled :=
| Fulfilled (jsonData : option GraphData)
| Rejected.

(** The [then] and [catch] handlers. *)
Definition settle (r : Settled) (s : AppState) : AppState :=
  match r with
  | Fulfilled jsonData => {| data := jsonData; loading := false |}
  | Rejected => {| data := data s; loading := false |}
  end.

(** What [App] returns: a message, or the title with the graph and its
    [args]. *)
Inductive View :=
| Message (text : string)
| Graph (title : string) (args : FC.Args).

Definition render (window_innerWidth window_innerHeight : Number)
           (s : AppState) : View :=
  if loading s then Message "Loading attention graph data..."
  else match data s with
       | None => Message "Error loading data"
       | Some d =>
           Graph "Attention Graph Visualization"
                 {| FC.data := Some d;
                    FC.width := (window_innerWidth - 40)%float;
                    FC.height := (window_innerHeight - 100)%float |}
       end.

End App.

(** ** Sample datasets *)

Module Sample.

Definition component (d : option GraphData) (svg : option (list Element))
  : Component :=
  {| state := {| data := d; width := 300; height := 200 |};
     svgRef := svg |}.

(** The end-to-end scenario: a 2 x 2 grid with labels and one edge. *)
Definition theCat : GraphData :=
  {| numLayers := 2; numTokens := 2;
     tokens := Some ["The"; "cat"];
     attentionPatterns :=
       [ {| sourceLayer := 1; sourceToken := 1;
            destLayer := 0; destToken := 0;
            weight := 0.8; head := 0 |} ] |}.

Definition edge (sl st dl dt : Z) (w : Number) (hd : Z) : AttentionPattern :=
  {| sourceLayer := sl; sourceToken := st;
     destLayer := dl; destToken := dt; weight := w; head := hd |}.

(** No labels; the second edge starts one layer past the grid. *)
Definition onePast : GraphData :=
  {| numLayers := 2; numTokens := 2; tokens := None;
     attentionPatterns :=
       [ edge 1 1 0 0 0.5 0; edge 2 0 0 0 0.5 1; edge 1 0 0 1 0.25 2 ] |}.

(** The same dataset with other head numbers. *)
Definition onePast_heads : GraphData :=
  {| numLayers := 2; numTokens := 2; tokens := None;
     attentionPatterns :=
       [ edge 1 1 0 0 0.5 7; edge 2 0 0 0 0.5 8; edge 1 0 0 1 0.25 9 ] |}.

(** One label for two token columns. *)
Definition shortTokens : GraphData :=
  {| numLayers := 2; numTokens := 2; tokens := Some ["The"];
     attentionPatterns := [] |}.

(** No layer at all. *)
Definition noLayers : GraphData :=
  {| numLayers := 0; numTokens := 3; tokens := None;
     attentionPatterns := [ edge 0 0 0 0 0.5 0 ] |}.

(** A single token column. *)
Definition oneColumn : GraphData :=
  {| numLayers := 2; numTokens := 1; tokens := None;
     attentionPatterns := [] |}.

(** What an earlier pass may have left on the surface. *)
Definition earlier : list Element :=
  [ SvgG "translate(20,20)" [ SvgCircle 0 0 5 "#e5e7eb" ] ].

End Sample.

(** ** Sample props *)

Module Scenario.

(** Props as the hosting page passes them: everything inside [args]. *)
Definition withArgs (d : GraphData) (w h : Number) : Props.Props :=
  {| Props.args := Some {| Args.data := d; Args.width := w; Args.height := h |};
     Props.data := None; Props.width := None; Props.height := None |}.

(** Direct props with a size and no dataset. *)
Definition sizeOnly (w h : Number) : Props.Props :=
  {| Props.args := None;
     Props.data := None; Props.width := Some w; Props.height := Some h |}.

(** A component fresh from its constructor, its SVG element attached and
    empty. *)
Definition fresh : Component :=
  {| state := initialState; svgRef := Some [] |}.

End Scenario.

(** * Properties *)

(** ** Loops and pushes *)

Lemma fold_push {A B : Type} (f : A -> B) (l : list A) (s : list B) :
  fold_left (fun acc i => push acc (f i)) l s = s ++ map f l.
Proof.
  revert s. induction l as [|a l IH]; intro s; simpl.
  - now rewrite app_nil_r.
  - rewrite IH. unfold push. now rewrite <- app_assoc.
Qed.

Lemma fold_push_rows {A B C : Type} (f : A -> B -> C)
      (rows : list A) (cols : list B) (s : list C) :
  fold_left (fun acc l => fold_left (fun acc t => push acc (f l t)) cols acc)
            rows s
  = s ++ flat_map (fun l => map (f l) cols) rows.
Proof.
  revert s. induction rows as [|a rows IH]; intro s; simpl.
  - now rewrite app_nil_r.
  - rewrite IH, fold_push, <- app_assoc. reflexivity.
Qed.


(** ** Index ranges and their products *)

Lemma length_indices n : length (indices n) = Z.to_nat n.
Proof. unfold indices. now rewrite length_map, length_seq. Qed.

Lemma In_indices n i : In i (indices n) <-> 0 <= i < n.
Proof.
  unfold indices. rewrite in_map_iff. split.
  - intros [k [<- Hk]]. apply in_seq in Hk. lia.
  - intros Hi. exists (Z.to_nat i). split; [lia|]. apply in_seq. lia.
Qed.

Lemma NoDup_indices n : NoDup (indices n).
Proof.
  unfold indices. generalize (seq_NoDup (Z.to_nat n) 0).
  generalize (seq 0 (Z.to_nat n)) as l.
  induction l as [|a l IH]; intro H; simpl; constructor;
    inversion H as [|? ? Hnotin Hnd]; subst.
  - rewrite in_map_iff. intros [k [Hk Hin]].
    apply Nat2Z.inj in Hk. subst k. contradiction.
  - now apply IH.
Qed.

Lemma nth_error_indices n i :
  (i < Z.to_nat n)%nat -> nth_error (indices n) i = Some (Z.of_nat i).
Proof.
  intro H. unfold indices.
  rewrite nth_error_map, (nth_error_nth' _ 0%nat) by now rewrite length_seq.
  simpl. now rewrite seq_nth.
Qed.

Lemma NoDup_list_prod {A B : Type} (l : list A) (l' : list B) :
  NoDup l -> NoDup l' -> NoDup (list_prod l l').
Proof.
  intros Hl Hl'. induction Hl as [|a l Ha Hl IH]; simpl.
  - constructor.
  - apply NoDup_app; repeat split.
    + clear -Hl'. induction Hl' as [|b l' Hb Hl' IH]; simpl; constructor; auto.
      rewrite in_map_iff. intros [b' [E Hin]]. now inversion E; subst.
    + exact IH.
    + intros [a' b'] Hin Hin'. apply in_map_iff in Hin as [b'' [E _]].
      inversion E; subst. apply in_prod_iff in Hin' as [Hin' _]. contradiction.
Qed.

Lemma nth_error_list_prod {A B : Type} (l : list A) (l' : list B) i j a b :
  nth_error l i = Some a -> nth_error l' j = Some b ->
  nth_error (list_prod l l') (i * length l' + j)%nat = Some (a, b).
Proof.
  revert i. induction l as [|a0 l IH]; intros i Hi Hj.
  - now destruct i.
  - destruct i as [|i]; simpl in *.
    + inversion Hi; subst a0.
      rewrite nth_error_app1.
      * rewrite nth_error_map, Hj. reflexivity.
      * rewrite length_map. apply nth_error_Some. congruence.
    + rewrite nth_error_app2; rewrite length_map; [|lia].
      replace (length l' + i * length l' + j - length l')%nat
        with (i * length l' + j)%nat by lia.
      now apply IH.
Qed.

Section RenderFacts.

Variable scaleLinear : Number -> Number -> Number -> Number -> Number -> Number.

Lemma buildNodes_grid d w h :
  buildNodes scaleLinear d w h = gridNodes scaleLinear d w h.
Proof.
  unfold buildNodes, gridNodes, for_upto.
  rewrite fold_push_rows. reflexivity.
Qed.

Lemma drawEdge_app nodes p g : drawEdge nodes p g = g ++ edgeLines nodes p.
Proof.
  unfold edgeLines, drawEdge, push.
  destruct (findNode nodes (sourceLayer p) (sourceToken p));
    destruct (findNode nodes (destLayer p) (destToken p));
    simpl; now rewrite ?app_nil_r.
Qed.

Lemma forEach_drawEdge nodes ps g :
  forEach ps (drawEdge nodes) g = g ++ flat_map (edgeLines nodes) ps.
Proof.
  unfold forEach. revert g.
  induction ps as [|p ps IH]; intro g; simpl.
  - now rewrite app_nil_r.
  - rewrite IH, drawEdge_app, <- app_assoc. reflexivity.
Qed.

Lemma drawGroup_eq d w h :
  drawGroup scaleLinear d w h =
    map drawCircle (gridNodes scaleLinear d w h) ++
    map drawLabel (gridNodes scaleLinear d w h) ++
    flat_map (edgeLines (gridNodes scaleLinear d w h)) (attentionPatterns d).
Proof.
  unfold drawGroup. rewrite forEach_drawEdge, buildNodes_grid.
  simpl. now rewrite <- app_assoc.
Qed.

(** *** The node array *)

Lemma gridNodes_map d w h :
  gridNodes scaleLinear d w h =
    map (fun k => nodeAt scaleLinear d w h (fst k) (snd k))
        (list_prod (indices (numLayers d)) (indices (numTokens d))).
Proof.
  unfold gridNodes.
  induction (indices (numLayers d)) as [|l ls IH]; simpl.
  - reflexivity.
  - rewrite map_app, map_map, IH. reflexivity.
Qed.

Lemma keys_gridNodes d w h :
  keys (gridNodes scaleLinear d w h) =
    list_prod (indices (numLayers d)) (indices (numTokens d)).
Proof.
  unfold keys. rewrite gridNodes_map, map_map. simpl.
  rewrite <- (map_id (list_prod _ _)) at 2.
  apply map_ext. now intros [l t].
Qed.

Lemma In_keys_gridNodes d w h l t :
  In (l, t) (keys (gridNodes scaleLinear d w h)) <-> inGrid d l t.
Proof.
  rewrite keys_gridNodes, in_prod_iff, !In_indices. reflexivity.
Qed.

Lemma In_gridNodes d w h n :
  In n (gridNodes scaleLinear d w h) <->
  inGrid d (layer n) (token n) /\
  n = nodeAt scaleLinear d w h (layer n) (token n).
Proof.
  rewrite gridNodes_map, in_map_iff. split.
  - intros [[l t] [<- Hin]]. simpl.
    apply in_prod_iff in Hin. rewrite !In_indices in Hin. now split.
  - intros [Hg ->]. exists (layer n, token n). split; [reflexivity|].
    simpl. apply in_prod_iff. now rewrite !In_indices.
Qed.

Lemma length_gridNodes d w h :
  length (gridNodes scaleLinear d w h) =
    (Z.to_nat (numLayers d) * Z.to_nat (numTokens d))%nat.
Proof.
  now rewrite gridNodes_map, length_map, length_prod, !length_indices.
Qed.

Lemma nth_error_gridNodes d w h l t :
  inGrid d l t ->
  nth_error (gridNodes scaleLinear d w h)
            (Z.to_nat (l * numTokens d + t)) =
    Some (nodeAt scaleLinear d w h l t).
Proof.
  intros [Hl Ht].
  rewrite gridNodes_map, nth_error_map.
  replace (Z.to_nat (l * numTokens d + t))
    with (Z.to_nat l * length (indices (numTokens d)) + Z.to_nat t)%nat
    by (rewrite length_indices; nia).
  rewrite (nth_error_list_prod _ _ _ _ (Z.of_nat (Z.to_nat l))
                               (Z.of_nat (Z.to_nat t)))
    by (apply nth_error_indices; lia).
  simpl. now rewrite !Z2Nat.id by lia.
Qed.

(** *** Endpoint resolution *)

Lemma findNode_inGrid d w h l t :
  inGrid d l t ->
  findNode (gridNodes scaleLinear d w h) l t =
    Some (nodeAt scaleLinear d w h l t).
Proof.
  intro Hg. unfold findNode.
  destruct (find _ _) as [n|] eqn:E.
  - apply find_some in E as [Hin Hp].
    apply andb_true_iff in Hp as [Hl Ht].
    apply Z.eqb_eq in Hl, Ht.
    apply In_gridNodes in Hin as [_ ->]. now rewrite Hl, Ht.
  - exfalso.
    assert (Hin : In (nodeAt scaleLinear d w h l t)
                     (gridNodes scaleLinear d w h))
      by (apply In_gridNodes; now split).
    apply (find_none _ _ E) in Hin. simpl in Hin.
    now rewrite !Z.eqb_refl in Hin.
Qed.

Lemma findNode_outside d w h l t :
  ~ inGrid d l t -> findNode (gridNodes scaleLinear d w h) l t = None.
Proof.
  intro Hg. unfold findNode.
  destruct (find _ _) as [n|] eqn:E; [|reflexivity].
  exfalso. apply find_some in E as [Hin Hp].
  apply andb_true_iff in Hp as [Hl Ht].
  apply Z.eqb_eq in Hl, Ht. subst l t.
  apply In_gridNodes in Hin as [Hin _]. contradiction.
Qed.

Lemma inGrid_dec d l t : {inGrid d l t} + {~ inGrid d l t}.
Proof.
  unfold inGrid.
  destruct (Z_le_dec 0 l), (Z_lt_dec l (numLayers d)),
           (Z_le_dec 0 t), (Z_lt_dec t (numTokens d));
    (left; lia) || (right; lia).
Qed.

Lemma edgeLines_resolves d w h p :
  resolves d p ->
  edgeLines (gridNodes scaleLinear d w h) p = [edgeLine scaleLinear d w h p].
Proof.
  intros [Hs Ht]. unfold edgeLines, drawEdge.
  rewrite (findNode_inGrid _ _ _ _ _ Hs), (findNode_inGrid _ _ _ _ _ Ht).
  reflexivity.
Qed.

Lemma edgeLines_unresolved d w h p :
  ~ resolves d p -> edgeLines (gridNodes scaleLinear d w h) p = [].
Proof.
  intro Hn. unfold edgeLines, drawEdge.
  destruct (inGrid_dec d (sourceLayer p) (sourceToken p)) as [Hs|Hs].
  - destruct (inGrid_dec d (destLayer p) (destToken p)) as [Ht|Ht].
    + exfalso. apply Hn. now split.
    + rewrite (findNode_outside _ _ _ _ _ Ht).
      now destruct (findNode _ _ _).
  - now rewrite (findNode_outside _ _ _ _ _ Hs).
Qed.

(** *** The whole pass *)

Lemma renderGraph_attached c d svg :
  data (state c) = Some d -> svgRef c = Some svg ->
  renderGraph scaleLinear c =
    {| state := state c;
       svgRef := Some [SvgG groupTransform
                         (drawGroup scaleLinear d (width (state c))
                                    (height (state c)))] |}.
Proof.
  intros Hd Hs. unfold renderGraph. now rewrite Hd, Hs.
Qed.

Lemma drawn_renderGraph c d svg :
  data (state c) = Some d -> svgRef c = Some svg ->
  drawn (renderGraph scaleLinear c) =
    drawGroup scaleLinear d (width (state c)) (height (state c)).
Proof.
  intros Hd Hs. now rewrite (renderGraph_attached c d svg Hd Hs).
Qed.

Lemma drawn_renderGraph_grid c d w h svg :
  state c = mkState (Some d) w h -> svgRef c = Some svg ->
  drawn (renderGraph scaleLinear c) =
    map drawCircle (gridNodes scaleLinear d w h) ++
    map drawLabel (gridNodes scaleLinear d w h) ++
    flat_map (edgeLines (gridNodes scaleLinear d w h)) (attentionPatterns d).
Proof.
  intros Hst Hs.
  rewrite (drawn_renderGraph c d svg), Hst by (now rewrite ?Hst).
  apply drawGroup_eq.
Qed.

(** ** The claims *)

(** C1. For a dataset with [numLayers >= 1] and [numTokens >= 1], the
    node array built by a render pass has [numLayers * numTokens]
    elements; their [(layer, token)] pairs are pairwise distinct and are
    exactly the pairs of [[0,numLayers) x [0,numTokens)]; they come in
    row-major order (the node of [(l, t)] sits at index
    [l * numTokens + t]); and the array is built anew by every call:
    whatever the surface held before, what the call leaves on it is
    drawn from this array alone. *)
Theorem node_sequence_is_grid d w h :
  1 <= numLayers d -> 1 <= numTokens d ->
  let nodes := buildNodes scaleLinear d w h in
  Z.of_nat (length nodes) = numLayers d * numTokens d /\
  NoDup (keys nodes) /\
  (forall l t, In (l, t) (keys nodes) <-> inGrid d l t) /\
  keys nodes = list_prod (indices (numLayers d)) (indices (numTokens d)) /\
  (forall l t, inGrid d l t ->
     nth_error nodes (Z.to_nat (l * numTokens d + t)) =
       Some (nodeAt scaleLinear d w h l t)) /\
  (forall c svg,
     state c = mkState (Some d) w h -> svgRef c = Some svg ->
     drawn (renderGraph scaleLinear c) =
       map drawCircle nodes ++ map drawLabel nodes ++
       flat_map (edgeLines nodes) (attentionPatterns d)).
Proof.
  intros Hl Ht nodes. subst nodes. rewrite buildNodes_grid.
  split; [|split; [|split; [|split; [|split]]]].
  - rewrite length_gridNodes. nia.
  - rewrite keys_gridNodes.
    apply NoDup_list_prod; apply NoDup_indices.
  - intros l t. apply In_keys_gridNodes.
  - apply keys_gridNodes.
  - apply nth_error_gridNodes.
  - intros c svg. apply drawn_renderGraph_grid.
Qed.

(** C2. An edge one of whose endpoints lies outside
    [[0,numLayers) x [0,numTokens)] finds no node for it; the pass adds
    no line for that edge and runs to its end: the surface holds one
    circle and one label per node and the lines of the other edges, as
    if the edge were not in the dataset, so every other edge with both
    endpoints in the grid has its line drawn. *)
Theorem unresolved_edge_skipped d w h pre p post c svg :
  attentionPatterns d = pre ++ p :: post ->
  ~ resolves d p ->
  state c = mkState (Some d) w h -> svgRef c = Some svg ->
  let nodes := buildNodes scaleLinear d w h in
  (findNode nodes (sourceLayer p) (sourceToken p) = None \/
   findNode nodes (destLayer p) (destToken p) = None) /\
  edgeLines nodes p = [] /\
  drawn (renderGraph scaleLinear c) =
    map drawCircle nodes ++ map drawLabel nodes ++
    flat_map (edgeLines nodes) (pre ++ post) /\
  (forall q, In q (pre ++ post) -> resolves d q ->
     In (edgeLine scaleLinear d w h q) (drawn (renderGraph scaleLinear c))).
Proof.
  intros Hps Hn Hst Hs nodes. subst nodes. rewrite buildNodes_grid.
  assert (Hout : drawn (renderGraph scaleLinear c) =
    map drawCircle (gridNodes scaleLinear d w h) ++
    map drawLabel (gridNodes scaleLinear d w h) ++
    flat_map (edgeLines (gridNodes scaleLinear d w h)) (pre ++ post)).
  { rewrite (drawn_renderGraph_grid c d w h svg Hst Hs), Hps.
    rewrite !flat_map_app. simpl.
    now rewrite (edgeLines_unresolved d w h p Hn). }
  split; [|split; [|split]].
  - destruct (inGrid_dec d (sourceLayer p) (sourceToken p)) as [Hi|Hi].
    + right. apply findNode_outside. intro Hj. apply Hn. now split.
    + left. now apply findNode_outside.
  - now apply edgeLines_unresolved.
  - exact Hout.
  - intros q Hq Hr. rewrite Hout, !in_app_iff. right. right.
    apply in_flat_map. exists q. split; [exact Hq|].
    rewrite (edgeLines_resolves d w h q Hr). now left.
Qed.

(** C3. An edge of the dataset with both endpoints in the grid is drawn
    as one line from its source node to its target node whose stroke
    width is [weight * 2] and whose opacity is [weight], whatever the
    weight (nothing is clamped); a weight of [0.5] gives stroke width
    [1] and opacity [0.5]. *)
Theorem resolved_edge_line d w h p c svg :
  In p (attentionPatterns d) -> resolves d p ->
  state c = mkState (Some d) w h -> svgRef c = Some svg ->
  let nodes := buildNodes scaleLinear d w h in
  let ln := edgeLine scaleLinear d w h p in
  edgeLines nodes p = [ln] /\
  In ln (drawn (renderGraph scaleLinear c)) /\
  strokeWidthOf ln = Some (weight p * 2)%float /\
  opacityOf ln = Some (weight p) /\
  (weight p = 0.5%float ->
   strokeWidthOf ln = Some 1%float /\ opacityOf ln = Some 0.5%float).
Proof.
  intros Hp Hr Hst Hs nodes ln. subst nodes ln. rewrite buildNodes_grid.
  split; [|split; [|split; [|split]]].
  - now apply edgeLines_resolves.
  - rewrite (drawn_renderGraph_grid c d w h svg Hst Hs), !in_app_iff.
    right. right. apply in_flat_map. exists p. split; [exact Hp|].
    rewrite (edgeLines_resolves d w h p Hr). now left.
  - reflexivity.
  - reflexivity.
  - intro Hw. simpl. rewrite Hw. split; reflexivity.
Qed.

(** *** Labels *)

Lemma array_get_short {A : Type} (ts : list A) t :
  Z.of_nat (length ts) <= t -> array_get ts t = None.
Proof.
  intro H. unfold array_get.
  destruct (t <? 0) eqn:E; [reflexivity|].
  apply nth_error_None. lia.
Qed.

Lemma array_get_within {A : Type} (ts : list A) t :
  0 <= t < Z.of_nat (length ts) ->
  exists s, nth_error ts (Z.to_nat t) = Some s /\ array_get ts t = Some s.
Proof.
  intro H. unfold array_get.
  replace (t <? 0) with false by (symmetry; apply Z.ltb_ge; lia).
  destruct (nth_error ts (Z.to_nat t)) as [s|] eqn:E.
  - now exists s.
  - apply nth_error_None in E. lia.
Qed.

Lemma In_drawLabel c d w h svg l t :
  state c = mkState (Some d) w h -> svgRef c = Some svg ->
  inGrid d l t ->
  In (drawLabel (nodeAt scaleLinear d w h l t))
     (drawn (renderGraph scaleLinear c)).
Proof.
  intros Hst Hs Hg.
  rewrite (drawn_renderGraph_grid c d w h svg Hst Hs), !in_app_iff.
  right. left. apply in_map. apply In_gridNodes. now split.
Qed.

(** C8. When [tokens] is absent, the node of token index [t] is labelled
    ["T<t>"] and the text drawn for the node of [(l, t)] is
    ["L<l>-T<t>"]; when [tokens] is present and [t] is below its length,
    the label is [tokens[t]] and the text is ["L<l>-<tokens[t]>"].  The
    nodes come in token order within each layer (index
    [l * numTokens + t]). *)
Theorem node_labels d w h l t c svg :
  inGrid d l t ->
  state c = mkState (Some d) w h -> svgRef c = Some svg ->
  let n := nodeAt scaleLinear d w h l t in
  nth_error (buildNodes scaleLinear d w h)
            (Z.to_nat (l * numTokens d + t)) = Some n /\
  In (drawLabel n) (drawn (renderGraph scaleLinear c)) /\
  contentOf (drawLabel n) =
    Some ("L" ++ string_of_Z l ++ "-" ++ string_of_label (label n))%string /\
  (tokens d = None ->
     label n = Some ("T" ++ string_of_Z t)%string /\
     contentOf (drawLabel n) =
       Some ("L" ++ string_of_Z l ++ "-" ++ "T" ++ string_of_Z t)%string) /\
  (forall ts, tokens d = Some ts -> t < Z.of_nat (length ts) ->
     exists s, nth_error ts (Z.to_nat t) = Some s /\
               label n = Some s /\
               contentOf (drawLabel n) =
                 Some ("L" ++ string_of_Z l ++ "-" ++ s)%string).
Proof.
  intros Hg Hst Hs n. subst n.
  split; [|split; [|split; [|split]]].
  - rewrite buildNodes_grid. now apply nth_error_gridNodes.
  - now apply (In_drawLabel c d w h svg).
  - reflexivity.
  - intro Hnone. simpl. unfold nodeLabel. rewrite Hnone. now split.
  - intros ts Hts Hlt.
    destruct (array_get_within ts t) as [s [Hnth Hget]];
      [destruct Hg as [_ Hg]; lia|].
    exists s. simpl. unfold nodeLabel. rewrite Hts, Hget. now repeat split.
Qed.

(** C5, as the code has it.  When [tokens] is present and shorter than
    [numTokens], reading a label past its end yields [undefined] and
    raises nothing: the pass runs to its end, the node of such a token
    index [t] has no label, the text drawn for it is ["L<l>-undefined"],
    and every node still gets its circle and its text. *)
Theorem short_tokens_undefined d w h ts l t c svg :
  tokens d = Some ts -> Z.of_nat (length ts) <= t -> inGrid d l t ->
  state c = mkState (Some d) w h -> svgRef c = Some svg ->
  let nodes := buildNodes scaleLinear d w h in
  let n := nodeAt scaleLinear d w h l t in
  In n nodes /\
  label n = None /\
  contentOf (drawLabel n) =
    Some ("L" ++ string_of_Z l ++ "-undefined")%string /\
  In (drawLabel n) (drawn (renderGraph scaleLinear c)) /\
  Z.of_nat (length nodes) = numLayers d * numTokens d /\
  drawn (renderGraph scaleLinear c) =
    map drawCircle nodes ++ map drawLabel nodes ++
    flat_map (edgeLines nodes) (attentionPatterns d).
Proof.
  intros Hts Hlen Hg Hst Hs nodes n. subst nodes n.
  rewrite buildNodes_grid.
  assert (Hlab : label (nodeAt scaleLinear d w h l t) = None).
  { simpl. unfold nodeLabel. rewrite Hts. now apply array_get_short. }
  split; [|split; [|split; [|split; [|split]]]].
  - apply In_gridNodes. now split.
  - exact Hlab.
  - unfold drawLabel. rewrite Hlab. reflexivity.
  - now apply (In_drawLabel c d w h svg).
  - rewrite length_gridNodes. destruct Hg as [Hl Ht]. nia.
  - now apply (drawn_renderGraph_grid c d w h svg).
Qed.

(** *** Clearing and guards *)

(** C6. Calling [renderGraph] a second time leaves the component as the
    first call left it; a call that draws first removes whatever the
    surface held, so what it leaves does not depend on it. *)
Theorem renderGraph_idempotent c :
  renderGraph scaleLinear (renderGraph scaleLinear c) =
    renderGraph scaleLinear c /\
  (forall d svg svg',
     data (state c) = Some d -> svgRef c = Some svg ->
     renderGraph scaleLinear {| state := state c; svgRef := Some svg' |} =
       renderGraph scaleLinear c).
Proof.
  split.
  - unfold renderGraph.
    destruct (data (state c)) as [d|] eqn:Hd;
      destruct (svgRef c) as [svg|] eqn:Hs; simpl;
      rewrite ?Hd, ?Hs; reflexivity.
  - intros d svg svg' Hd Hs. unfold renderGraph. simpl.
    rewrite Hd, Hs. reflexivity.
Qed.

Lemma indices_nonpos n : n <= 0 -> indices n = [].
Proof.
  intro H. unfold indices.
  replace (Z.to_nat n) with 0%nat by lia. reflexivity.
Qed.

Lemma gridNodes_empty d w h :
  numLayers d <= 0 \/ numTokens d <= 0 -> gridNodes scaleLinear d w h = [].
Proof.
  intros [H|H]; unfold gridNodes; rewrite (indices_nonpos _ H).
  - reflexivity.
  - simpl. induction (indices (numLayers d)); simpl; auto.
Qed.

Lemma edgeLines_nil ps : flat_map (edgeLines []) ps = [].
Proof. induction ps as [|p ps IH]; simpl; auto. Qed.

(** C7, as the code has it.  With [numLayers <= 0] or [numTokens <= 0]
    the pass is not refused: it removes what the surface held and
    leaves one group without children (no circle, no text, no line). *)
Theorem empty_grid_draws_empty_group c d svg :
  numLayers d <= 0 \/ numTokens d <= 0 ->
  data (state c) = Some d -> svgRef c = Some svg ->
  renderGraph scaleLinear c =
    {| state := state c; svgRef := Some [SvgG "translate(20,20)" []] |}.
Proof.
  intros Hn Hd Hs.
  rewrite (renderGraph_attached c d svg Hd Hs), drawGroup_eq.
  rewrite (gridNodes_empty d _ _ Hn). simpl.
  now rewrite edgeLines_nil.
Qed.

(** C10. Without a dataset, or without an SVG element behind the ref,
    [renderGraph] returns at once: the component, its surface included,
    is as it was. *)
Theorem renderGraph_guard c :
  data (state c) = None \/ svgRef c = None ->
  renderGraph scaleLinear c = c.
Proof.
  intros [H|H]; unfold renderGraph; rewrite H;
    [|destruct (data (state c))]; reflexivity.
Qed.

(** *** The head field *)

Lemma edgeLines_sameExceptHead nodes p q :
  sameExceptHead p q -> edgeLines nodes p = edgeLines nodes q.
Proof.
  intros (H1 & H2 & H3 & H4 & H5).
  unfold edgeLines, drawEdge. now rewrite H1, H2, H3, H4, H5.
Qed.

Lemma gridNodes_sameData d e w h :
  numLayers d = numLayers e -> numTokens d = numTokens e ->
  tokens d = tokens e ->
  gridNodes scaleLinear d w h = gridNodes scaleLinear e w h.
Proof.
  intros Hl Ht Hk. unfold gridNodes. rewrite Hl, Ht.
  apply flat_map_ext. intro l. apply map_ext. intro t.
  unfold nodeAt, xScale, yScale, nodeLabel. now rewrite Hl, Ht, Hk.
Qed.

(** C9. Two datasets that differ only in the [head] values of their
    edges are drawn alike, at every width and height and from every
    surface: [head] changes no position, label or line. *)
Theorem head_ignored d e w h svg :
  sameDataExceptHead d e ->
  svgRef (renderGraph scaleLinear
            {| state := mkState (Some d) w h; svgRef := svg |}) =
  svgRef (renderGraph scaleLinear
            {| state := mkState (Some e) w h; svgRef := svg |}).
Proof.
  intros (Hl & Ht & Hk & Hps).
  unfold renderGraph. simpl. destruct svg as [svg|]; [|reflexivity].
  simpl. do 3 f_equal.
  rewrite !drawGroup_eq, (gridNodes_sameData d e w h Hl Ht Hk).
  do 2 f_equal.
  induction Hps as [|p q ps qs Hpq Hps IH]; simpl.
  - reflexivity.
  - now rewrite IH, (edgeLines_sameExceptHead _ p q Hpq).
Qed.

(** *** Collapsed domains *)

(** With a single token column every node takes the value the scale
    gives to [0] over the domain [[0, 0]]; likewise for a single layer
    row.  What that value is belongs to the scale. *)
Lemma single_token_x d w h n :
  numTokens d = 1 -> In n (buildNodes scaleLinear d w h) ->
  x n = scaleLinear (Number_of_Z 0) (Number_of_Z 0)
                    (Number_of_Z 0) (innerWidth w) (Number_of_Z 0).
Proof.
  intros H1 Hin. rewrite buildNodes_grid in Hin.
  apply In_gridNodes in Hin as [[_ Ht] ->].
  simpl. unfold xScale. rewrite H1.
  replace (token n) with 0 by lia. reflexivity.
Qed.

Lemma single_layer_y d w h n :
  numLayers d = 1 -> In n (buildNodes scaleLinear d w h) ->
  y n = scaleLinear (Number_of_Z 0) (Number_of_Z 0)
                    (Number_of_Z 0) (innerHeight h) (Number_of_Z 0).
Proof.
  intros H1 Hin. rewrite buildNodes_grid in Hin.
  apply In_gridNodes in Hin as [[Hl _] ->].
  simpl. unfold yScale. rewrite H1.
  replace (layer n) with 0 by lia. reflexivity.
Qed.

End RenderFacts.

(** ** The pass on the sample datasets *)

Example string_of_Z_digits :
  string_of_Z 0 = "0" /\ string_of_Z 7 = "7" /\ string_of_Z 12 = "12".
Proof. repeat split. Qed.

(** The end-to-end scenario: four nodes at the corners of the inner
    rectangle, four labels, one line from L1/"cat" to L0/"The". *)
Example theCat_drawn :
  drawn (renderGraph D3.scaleLinear_mid
           (Sample.component (Some Sample.theCat) (Some []))) =
    [ SvgCircle 0 0 5 "#e5e7eb"; SvgCircle 260 0 5 "#e5e7eb";
      SvgCircle 0 160 5 "#e5e7eb"; SvgCircle 260 160 5 "#e5e7eb";
      SvgText 0 (-10) "middle" "12px" "L0-The";
      SvgText 260 (-10) "middle" "12px" "L0-cat";
      SvgText 0 150 "middle" "12px" "L1-The";
      SvgText 260 150 "middle" "12px" "L1-cat";
      SvgLine 260 160 0 0 "#3B82F6" (0.8 * 2) 0.8 ].
Proof. vm_compute. reflexivity. Qed.

(** The two linear scales agree on it. *)
Example theCat_scales_agree :
  renderGraph D3.scaleLinear_start
    (Sample.component (Some Sample.theCat) (Some [])) =
  renderGraph D3.scaleLinear_mid
    (Sample.component (Some Sample.theCat) (Some [])).
Proof. vm_compute. reflexivity. Qed.

(** On a single token column they do not: one puts every node at the
    start of the range, the other in its middle. *)
Example oneColumn_start :
  map x (buildNodes D3.scaleLinear_start Sample.oneColumn 300 200) =
    [0%float; 0%float].
Proof. vm_compute. reflexivity. Qed.

Example oneColumn_mid :
  map x (buildNodes D3.scaleLinear_mid Sample.oneColumn 300 200) =
    [130%float; 130%float].
Proof. vm_compute. reflexivity. Qed.

(** ** Instances of the claims *)

Lemma node_sequence_is_grid_witness :
  1 <= numLayers Sample.theCat /\ 1 <= numTokens Sample.theCat /\
  Z.of_nat (length (buildNodes D3.scaleLinear_mid Sample.theCat 300 200)) = 4 /\
  keys (buildNodes D3.scaleLinear_mid Sample.theCat 300 200) =
    [(0, 0); (0, 1); (1, 0); (1, 1)].
Proof.
  assert (Hl : 1 <= numLayers Sample.theCat) by (simpl; lia).
  assert (Ht : 1 <= numTokens Sample.theCat) by (simpl; lia).
  destruct (node_sequence_is_grid D3.scaleLinear_mid Sample.theCat
              300 200 Hl Ht) as (Hlen & _ & _ & Hkeys & _).
  split; [exact Hl|]. split; [exact Ht|]. split.
  - exact Hlen.
  - exact Hkeys.
Defined.

Lemma unresolved_edge_skipped_witness :
  ~ resolves Sample.onePast (Sample.edge 2 0 0 0 0.5 1) /\
  edgeLines (buildNodes D3.scaleLinear_mid Sample.onePast 300 200)
            (Sample.edge 2 0 0 0 0.5 1) = [] /\
  In (edgeLine D3.scaleLinear_mid Sample.onePast 300 200
               (Sample.edge 1 0 0 1 0.25 2))
     (drawn (renderGraph D3.scaleLinear_mid
               (Sample.component (Some Sample.onePast) (Some Sample.earlier)))).
Proof.
  assert (Hn : ~ resolves Sample.onePast (Sample.edge 2 0 0 0 0.5 1))
    by (unfold resolves, inGrid; simpl; lia).
  destruct (unresolved_edge_skipped D3.scaleLinear_mid Sample.onePast 300 200
              [Sample.edge 1 1 0 0 0.5 0] (Sample.edge 2 0 0 0 0.5 1)
              [Sample.edge 1 0 0 1 0.25 2]
              (Sample.component (Some Sample.onePast) (Some Sample.earlier))
              Sample.earlier eq_refl Hn eq_refl eq_refl)
    as (_ & Hnone & _ & Hothers).
  split; [exact Hn|]. split; [exact Hnone|].
  apply Hothers.
  - simpl. right. now left.
  - unfold resolves, inGrid; simpl; lia.
Defined.

Lemma resolved_edge_line_witness :
  resolves Sample.onePast (Sample.edge 1 1 0 0 0.5 0) /\
  strokeWidthOf (edgeLine D3.scaleLinear_mid Sample.onePast 300 200
                          (Sample.edge 1 1 0 0 0.5 0)) = Some 1%float /\
  opacityOf (edgeLine D3.scaleLinear_mid Sample.onePast 300 200
                      (Sample.edge 1 1 0 0 0.5 0)) = Some 0.5%float.
Proof.
  assert (Hr : resolves Sample.onePast (Sample.edge 1 1 0 0 0.5 0))
    by (unfold resolves, inGrid; simpl; lia).
  assert (Hin : In (Sample.edge 1 1 0 0 0.5 0)
                   (attentionPatterns Sample.onePast))
    by (simpl; now left).
  destruct (resolved_edge_line D3.scaleLinear_mid Sample.onePast 300 200
              (Sample.edge 1 1 0 0 0.5 0)
              (Sample.component (Some Sample.onePast) (Some []))
              [] Hin Hr eq_refl eq_refl)
    as (_ & _ & _ & _ & Hhalf).
  split; [exact Hr|]. exact (Hhalf eq_refl).
Defined.

Lemma node_labels_witness :
  inGrid Sample.onePast 1 1 /\
  contentOf (drawLabel (nodeAt D3.scaleLinear_mid Sample.onePast 300 200 1 1))
    = Some "L1-T1".
Proof.
  assert (Hg : inGrid Sample.onePast 1 1) by (unfold inGrid; simpl; lia).
  destruct (node_labels D3.scaleLinear_mid Sample.onePast 300 200 1 1
              (Sample.component (Some Sample.onePast) (Some []))
              [] Hg eq_refl eq_refl)
    as (_ & _ & _ & Hnone & _).
  split; [exact Hg|]. exact (proj2 (Hnone eq_refl)).
Defined.

Lemma head_ignored_witness :
  sameDataExceptHead Sample.onePast Sample.onePast_heads /\
  svgRef (renderGraph D3.scaleLinear_mid
            (Sample.component (Some Sample.onePast) (Some []))) =
  svgRef (renderGraph D3.scaleLinear_mid
            (Sample.component (Some Sample.onePast_heads) (Some []))).
Proof.
  assert (H : sameDataExceptHead Sample.onePast Sample.onePast_heads).
  { unfold sameDataExceptHead. simpl. repeat split.
    repeat (constructor; [unfold sameExceptHead; simpl; repeat split|]).
    constructor. }
  split; [exact H|].
  exact (head_ignored D3.scaleLinear_mid Sample.onePast Sample.onePast_heads
           300 200 (Some []) H).
Defined.

Lemma renderGraph_guard_witness :
  data (state (Sample.component None (Some Sample.earlier))) = None /\
  renderGraph D3.scaleLinear_mid (Sample.component None (Some Sample.earlier))
    = Sample.component None (Some Sample.earlier).
Proof.
  split; [reflexivity|].
  apply (renderGraph_guard D3.scaleLinear_mid). left. reflexivity.
Defined.

(** ** Where the code departs from the specification *)

(** C5. One label for two token columns: nothing fails; the pass draws
    all four circles and four texts, two of them with ["undefined"] as
    label. *)
Lemma short_tokens_counterexample :
  tokens Sample.shortTokens = Some ["The"%string] /\
  Z.of_nat (length ["The"%string]) < numTokens Sample.shortTokens /\
  drawn (renderGraph D3.scaleLinear_mid
           (Sample.component (Some Sample.shortTokens) (Some []))) =
    [ SvgCircle 0 0 5 "#e5e7eb"; SvgCircle 260 0 5 "#e5e7eb";
      SvgCircle 0 160 5 "#e5e7eb"; SvgCircle 260 160 5 "#e5e7eb";
      SvgText 0 (-10) "middle" "12px" "L0-The";
      SvgText 260 (-10) "middle" "12px" "L0-undefined";
      SvgText 0 150 "middle" "12px" "L1-The";
      SvgText 260 150 "middle" "12px" "L1-undefined" ] /\
  drawn (renderGraph D3.scaleLinear_mid
           (Sample.component (Some Sample.shortTokens) (Some []))) <> [].
Proof.
  split; [reflexivity|]. split; [simpl; lia|]. split.
  - vm_compute. reflexivity.
  - vm_compute. discriminate.
Qed.

Lemma short_tokens_undefined_witness :
  inGrid Sample.shortTokens 0 1 /\
  contentOf (drawLabel
               (nodeAt D3.scaleLinear_mid Sample.shortTokens 300 200 0 1))
    = Some "L0-undefined" /\
  In (drawLabel (nodeAt D3.scaleLinear_mid Sample.shortTokens 300 200 0 1))
     (drawn (renderGraph D3.scaleLinear_mid
               (Sample.component (Some Sample.shortTokens) (Some [])))).
Proof.
  assert (Hg : inGrid Sample.shortTokens 0 1) by (unfold inGrid; simpl; lia).
  assert (Hlen : Z.of_nat (length ["The"%string]) <= 1) by (simpl; lia).
  destruct (short_tokens_undefined D3.scaleLinear_mid Sample.shortTokens
              300 200 ["The"%string] 0 1
              (Sample.component (Some Sample.shortTokens) (Some []))
              [] eq_refl Hlen Hg eq_refl eq_refl)
    as (_ & _ & Htext & Hin & _).
  split; [exact Hg|]. split; [exact Htext | exact Hin].
Defined.

(** C7. No layer: the pass is neither skipped nor refused; it removes the
    earlier drawing and leaves an empty group in its place. *)
Lemma empty_grid_counterexample :
  numLayers Sample.noLayers <= 0 /\
  renderGraph D3.scaleLinear_mid
    (Sample.component (Some Sample.noLayers) (Some Sample.earlier)) <>
  Sample.component (Some Sample.noLayers) (Some Sample.earlier) /\
  svgRef (renderGraph D3.scaleLinear_mid
            (Sample.component (Some Sample.noLayers) (Some Sample.earlier))) =
    Some [SvgG "translate(20,20)" []].
Proof.
  split; [simpl; lia|]. split.
  - intro H. apply (f_equal svgRef) in H. vm_compute in H. discriminate H.
  - vm_compute. reflexivity.
Qed.

Lemma empty_grid_draws_empty_group_witness :
  (numLayers Sample.noLayers <= 0 \/ numTokens Sample.noLayers <= 0) /\
  renderGraph D3.scaleLinear_mid
    (Sample.component (Some Sample.noLayers) (Some Sample.earlier)) =
  Sample.component (Some Sample.noLayers)
                   (Some [SvgG "translate(20,20)" []]).
Proof.
  assert (H : numLayers Sample.noLayers <= 0 \/ numTokens Sample.noLayers <= 0)
    by (left; simpl; lia).
  split; [exact H|].
  exact (empty_grid_draws_empty_group D3.scaleLinear_mid
           (Sample.component (Some Sample.noLayers) (Some Sample.earlier))
           Sample.noLayers Sample.earlier H eq_refl eq_refl).
Defined.

(** * Further properties of the render pass *)

Lemma inGridb_spec d l t : inGridb d l t = true <-> inGrid d l t.
Proof.
  unfold inGridb, inGrid.
  rewrite !andb_true_iff, !Z.leb_le, !Z.ltb_lt. tauto.
Qed.

Lemma resolvesb_spec d p : resolvesb d p = true <-> resolves d p.
Proof.
  unfold resolvesb, resolves.
  rewrite andb_true_iff, !inGridb_spec. reflexivity.
Qed.

Lemma filter_none {A : Type} (f : A -> bool) (l : list A) :
  (forall a, In a l -> f a = false) -> filter f l = [].
Proof.
  induction l as [|a l IH]; intro H; simpl; [reflexivity|].
  rewrite (H a) by now left. apply IH. intros b Hb. apply H. now right.
Qed.

Lemma filter_all {A : Type} (f : A -> bool) (l : list A) :
  (forall a, In a l -> f a = true) -> filter f l = l.
Proof.
  induction l as [|a l IH]; intro H; simpl; [reflexivity|].
  rewrite (H a) by now left. f_equal. apply IH. intros b Hb. apply H. now right.
Qed.

Section RenderOrder.

Variable scaleLinear : Number -> Number -> Number -> Number -> Number -> Number.

Lemma edgeLines_filter d w h ps :
  flat_map (edgeLines (gridNodes scaleLinear d w h)) ps =
    map (edgeLine scaleLinear d w h) (filter (resolvesb d) ps).
Proof.
  induction ps as [|p ps IH]; simpl; [reflexivity|].
  destruct (resolvesb d p) eqn:E.
  - apply resolvesb_spec in E.
    rewrite (edgeLines_resolves scaleLinear d w h p E), IH. reflexivity.
  - rewrite (edgeLines_unresolved scaleLinear d w h p), IH; [reflexivity|].
    intro H. apply resolvesb_spec in H. congruence.
Qed.

(** What a drawing pass leaves in the group, as three runs. *)
Lemma drawn_runs d w h svg :
  drawn (renderGraph scaleLinear
           {| state := mkState (Some d) w h; svgRef := Some svg |}) =
    map drawCircle (gridNodes scaleLinear d w h) ++
    map drawLabel (gridNodes scaleLinear d w h) ++
    map (edgeLine scaleLinear d w h)
        (filter (resolvesb d) (attentionPatterns d)).
Proof.
  rewrite (drawn_renderGraph_grid scaleLinear
             {| state := mkState (Some d) w h; svgRef := Some svg |}
             d w h svg eq_refl eq_refl).
  now rewrite edgeLines_filter.
Qed.

Lemma filter_kind_runs (f : Element -> bool) (cs ts ls : list Element)
      (fc ft fl : bool) :
  (forall e, In e cs -> f e = fc) -> (forall e, In e ts -> f e = ft) ->
  (forall e, In e ls -> f e = fl) ->
  filter f (cs ++ ts ++ ls) =
    (if fc then cs else []) ++ (if ft then ts else []) ++
    (if fl then ls else []).
Proof.
  intros Hc Ht Hl. rewrite !filter_app.
  destruct fc, ft, fl;
    rewrite ?(filter_all f cs), ?(filter_none f cs),
            ?(filter_all f ts), ?(filter_none f ts),
            ?(filter_all f ls), ?(filter_none f ls) by assumption;
    reflexivity.
Qed.

Lemma kind_of_circles (ns : list Node) e :
  In e (map drawCircle ns) ->
  isCircle e = true /\ isText e = false /\ isLine e = false.
Proof. intro H. apply in_map_iff in H as [n [<- _]]. now repeat split. Qed.

Lemma kind_of_labels (ns : list Node) e :
  In e (map drawLabel ns) ->
  isCircle e = false /\ isText e = true /\ isLine e = false.
Proof. intro H. apply in_map_iff in H as [n [<- _]]. now repeat split. Qed.

Lemma kind_of_lines d w h ps e :
  In e (map (edgeLine scaleLinear d w h) ps) ->
  isCircle e = false /\ isText e = false /\ isLine e = true.
Proof. intro H. apply in_map_iff in H as [n [<- _]]. now repeat split. Qed.

(** X1. The lines a pass draws are, in input order, one for each edge
    with both endpoints in the grid and none for the others; when every
    edge resolves there is one line per edge. *)
Theorem lines_follow_resolvable_edges d w h svg :
  filter isLine
    (drawn (renderGraph scaleLinear
              {| state := mkState (Some d) w h; svgRef := Some svg |})) =
    map (edgeLine scaleLinear d w h)
        (filter (resolvesb d) (attentionPatterns d)) /\
  (forallb (resolvesb d) (attentionPatterns d) = true ->
   filter isLine
     (drawn (renderGraph scaleLinear
               {| state := mkState (Some d) w h; svgRef := Some svg |})) =
     map (edgeLine scaleLinear d w h) (attentionPatterns d)).
Proof.
  assert (H : filter isLine
    (drawn (renderGraph scaleLinear
              {| state := mkState (Some d) w h; svgRef := Some svg |})) =
    map (edgeLine scaleLinear d w h)
        (filter (resolvesb d) (attentionPatterns d))).
  { rewrite drawn_runs.
    rewrite (filter_kind_runs isLine _ _ _ false false true); [reflexivity| | |].
    - intros e He. now apply kind_of_circles in He.
    - intros e He. now apply kind_of_labels in He.
    - intros e He. now apply kind_of_lines in He. }
  split; [exact H|].
  intro Hall. rewrite H. f_equal. apply filter_all.
  intros p Hp. rewrite forallb_forall in Hall. now apply Hall.
Qed.

(** X2. What a pass leaves in the group is its circles, then its texts,
    then its lines, with nothing else and nothing interleaved: one circle
    and one text per node, in node order. *)
Theorem drawn_in_layers d w h svg :
  let out := drawn (renderGraph scaleLinear
                      {| state := mkState (Some d) w h; svgRef := Some svg |}) in
  let nodes := buildNodes scaleLinear d w h in
  out = filter isCircle out ++ filter isText out ++ filter isLine out /\
  filter isCircle out = map drawCircle nodes /\
  filter isText out = map drawLabel nodes /\
  length out =
    (2 * length nodes +
     length (filter (resolvesb d) (attentionPatterns d)))%nat.
Proof.
  intros out nodes. subst out nodes.
  rewrite buildNodes_grid, drawn_runs.
  set (cs := map drawCircle _). set (ts := map drawLabel _).
  set (ls := map (edgeLine _ _ _ _) _).
  assert (Hc : filter isCircle (cs ++ ts ++ ls) = cs).
  { rewrite (filter_kind_runs isCircle _ _ _ true false false).
    - now rewrite !app_nil_r.
    - intros e He. now apply kind_of_circles in He.
    - intros e He. now apply kind_of_labels in He.
    - intros e He. now apply kind_of_lines in He. }
  assert (Ht : filter isText (cs ++ ts ++ ls) = ts).
  { rewrite (filter_kind_runs isText _ _ _ false true false).
    - now rewrite !app_nil_r.
    - intros e He. now apply kind_of_circles in He.
    - intros e He. now apply kind_of_labels in He.
    - intros e He. now apply kind_of_lines in He. }
  assert (Hl : filter isLine (cs ++ ts ++ ls) = ls).
  { rewrite (filter_kind_runs isLine _ _ _ false false true).
    - reflexivity.
    - intros e He. now apply kind_of_circles in He.
    - intros e He. now apply kind_of_labels in He.
    - intros e He. now apply kind_of_lines in He. }
  rewrite Hc, Ht, Hl. repeat split.
  subst cs ts ls. rewrite !length_app, !length_map. lia.
Qed.

(** X3. The circle of the node of [(l, t)] is element [l * numTokens + t]
    of the group and sits at the scaled position with radius 5; its text
    is [numLayers * numTokens] elements further, at the same abscissa and
    10 above. *)
Theorem circle_and_text_of_node d w h svg l t :
  inGrid d l t ->
  let out := drawn (renderGraph scaleLinear
                      {| state := mkState (Some d) w h; svgRef := Some svg |}) in
  let i := Z.to_nat (l * numTokens d + t) in
  let n := Z.to_nat (numLayers d * numTokens d) in
  nth_error out i =
    Some (SvgCircle (xScale scaleLinear d w t) (yScale scaleLinear d h l)
                    5 "#e5e7eb") /\
  nth_error out (n + i) =
    Some (SvgText (xScale scaleLinear d w t)
                  (yScale scaleLinear d h l - 10)%float "middle" "12px"
                  ("L" ++ string_of_Z l ++ "-" ++
                   string_of_label (nodeLabel d t))%string).
Proof.
  intros Hg out i n. subst out i n. rewrite drawn_runs.
  pose proof (nth_error_gridNodes scaleLinear d w h l t Hg) as Hn.
  pose proof (length_gridNodes scaleLinear d w h) as Hlen.
  assert (Hi : (Z.to_nat (l * numTokens d + t) <
                length (gridNodes scaleLinear d w h))%nat).
  { apply nth_error_Some. congruence. }
  assert (HN : Z.to_nat (numLayers d * numTokens d) =
               length (gridNodes scaleLinear d w h)).
  { rewrite Hlen. destruct Hg as [Hl Ht]. nia. }
  split.
  - rewrite nth_error_app1 by now rewrite length_map.
    rewrite nth_error_map, Hn. reflexivity.
  - rewrite nth_error_app2 by (rewrite length_map; lia).
    rewrite length_map, HN.
    replace (length (gridNodes scaleLinear d w h) +
             Z.to_nat (l * numTokens d + t) -
             length (gridNodes scaleLinear d w h))%nat
      with (Z.to_nat (l * numTokens d + t)) by lia.
    rewrite nth_error_app1 by now rewrite length_map.
    rewrite nth_error_map, Hn. reflexivity.
Qed.

(** X4. The nodes form aligned rows and columns: two nodes of the same
    token column have the same abscissa and the same label, two nodes of
    the same layer have the same ordinate. *)
Theorem nodes_aligned d w h n1 n2 :
  In n1 (buildNodes scaleLinear d w h) ->
  In n2 (buildNodes scaleLinear d w h) ->
  (token n1 = token n2 -> x n1 = x n2 /\ label n1 = label n2) /\
  (layer n1 = layer n2 -> y n1 = y n2).
Proof.
  rewrite buildNodes_grid. intros H1 H2.
  apply In_gridNodes in H1 as [_ E1]. apply In_gridNodes in H2 as [_ E2].
  split.
  - intro Ht. rewrite E1, E2. simpl. now rewrite Ht.
  - intro Hl. rewrite E1, E2. simpl. now rewrite Hl.
Qed.

End RenderOrder.

(** ** The texts of the labels *)

Lemma string_of_Z_inj a b : string_of_Z a = string_of_Z b -> a = b.
Proof.
  unfold string_of_Z. intro H.
  apply DecimalZ.to_int_inj.
  assert (Hnn : forall z, Z.to_int z <> Decimal.Pos Decimal.Nil /\
                          Z.to_int z <> Decimal.Neg Decimal.Nil).
  { intros [|p|p]; simpl; split; try discriminate;
      intro E; injection E as E;
      now apply DecimalPos.Unsigned.to_uint_nonnil in E. }
  apply (f_equal NilZero.int_of_string) in H.
  rewrite !NilZero.isi in H by apply Hnn.
  now injection H.
Qed.

Lemma dashFree_uint d : dashFree (NilEmpty.string_of_uint d) = true.
Proof. induction d; simpl; auto. Qed.

Lemma dashFree_string_of_Z z : 0 <= z -> dashFree (string_of_Z z) = true.
Proof.
  intro H. unfold string_of_Z.
  destruct z as [|p|p]; [reflexivity| |lia].
  simpl. unfold NilZero.string_of_uint.
  destruct (Pos.to_uint p); try reflexivity; apply dashFree_uint.
Qed.

Lemma split_at_dash (a b r1 r2 : string) :
  dashFree a = true -> dashFree b = true ->
  (a ++ String "-" r1 = b ++ String "-" r2)%string ->
  a = b /\ r1 = r2.
Proof.
  revert b. induction a as [|c a IH]; intros [|c' b] Ha Hb E; simpl in *.
  - injection E as E. now split.
  - injection E as E1 E2. subst c'. discriminate.
  - injection E as E1 E2. subst c. discriminate.
  - injection E as E1 E2. subst c'.
    apply andb_true_iff in Ha as [_ Ha]. apply andb_true_iff in Hb as [_ Hb].
    destruct (IH b Ha Hb E2) as [-> ->]. now split.
Qed.

Section LabelTexts.

Variable scaleLinear : Number -> Number -> Number -> Number -> Number -> Number.

Lemma label_text_inj d w h l1 t1 l2 t2 :
  0 <= l1 -> 0 <= l2 ->
  contentOf (drawLabel (nodeAt scaleLinear d w h l1 t1)) =
  contentOf (drawLabel (nodeAt scaleLinear d w h l2 t2)) ->
  l1 = l2 /\
  string_of_label (nodeLabel d t1) = string_of_label (nodeLabel d t2).
Proof.
  intros H1 H2 E. simpl in E. injection E as E.
  apply split_at_dash in E; try now apply dashFree_string_of_Z.
  destruct E as [El Et]. split; [now apply string_of_Z_inj | exact Et].
Qed.

Lemma NoDup_gridNodes d w h : NoDup (gridNodes scaleLinear d w h).
Proof.
  apply (NoDup_map_inv (fun n => (layer n, token n))).
  change (NoDup (keys (gridNodes scaleLinear d w h))).
  rewrite keys_gridNodes. apply NoDup_list_prod; apply NoDup_indices.
Qed.

(** X5. The text of a label tells the layer of its node, and with the
    fallback labels it tells the node: two nodes with the same text are
    in the same layer and have the same label, and when [tokens] is absent
    the texts a pass draws are pairwise distinct. *)
Theorem label_texts_identify_nodes d w h :
  (forall l1 t1 l2 t2,
     inGrid d l1 t1 -> inGrid d l2 t2 ->
     contentOf (drawLabel (nodeAt scaleLinear d w h l1 t1)) =
     contentOf (drawLabel (nodeAt scaleLinear d w h l2 t2)) ->
     l1 = l2 /\
     string_of_label (nodeLabel d t1) = string_of_label (nodeLabel d t2)) /\
  (tokens d = None ->
   forall svg,
     NoDup (map contentOf
              (filter isText
                 (drawn (renderGraph scaleLinear
                           {| state := mkState (Some d) w h;
                              svgRef := Some svg |}))))).
Proof.
  split.
  - intros l1 t1 l2 t2 [[H1 _] _] [[H2 _] _]. now apply label_text_inj.
  - intros Hnone svg. rewrite drawn_runs.
    rewrite (filter_kind_runs isText _ _ _ false true false).
    + simpl. rewrite app_nil_r, map_map.
      apply NoDup_map_NoDup_ForallPairs; [|apply NoDup_gridNodes].
      intros n1 n2 Hn1 Hn2 E.
      apply In_gridNodes in Hn1 as [[[Hl1 _] _] E1].
      apply In_gridNodes in Hn2 as [[[Hl2 _] _] E2].
      rewrite E1, E2 in E |- *.
      apply label_text_inj in E as [El Et]; try assumption.
      unfold nodeLabel in Et. rewrite Hnone in Et. simpl in Et.
      injection Et as Et. apply string_of_Z_inj in Et.
      now rewrite El, Et.
    + intros e He. now apply kind_of_circles in He.
    + intros e He. now apply kind_of_labels in He.
    + intros e He. now apply (kind_of_lines scaleLinear) in He.
Qed.

End LabelTexts.

(** * The lifecycle of the class component *)

Section LifecycleFacts.

Variable scaleLinear : Number -> Number -> Number -> Number -> Number -> Number.

Lemma componentDidUpdate_draws p c d w h svg :
  propsSource p = (Some d, w, h) -> svgRef c = Some svg ->
  componentDidUpdate scaleLinear p c =
    {| state := mkState (Some d) (Number_of_undefined w)
                        (Number_of_undefined h);
       svgRef := Some [SvgG groupTransform
                         (drawGroup scaleLinear d (Number_of_undefined w)
                                    (Number_of_undefined h))] |}.
Proof.
  intros Hp Hs. unfold componentDidUpdate, renderGraph.
  rewrite Hp. simpl. rewrite Hs. reflexivity.
Qed.

Lemma componentDidUpdate_without_data p c w h :
  propsSource p = (None, w, h) ->
  componentDidUpdate scaleLinear p c =
    {| state := mkState None (Number_of_undefined w) (Number_of_undefined h);
       svgRef := svgRef c |}.
Proof.
  intro Hp. unfold componentDidUpdate, renderGraph. rewrite Hp. reflexivity.
Qed.

Lemma componentDidUpdate_attached p c svg :
  svgRef c = Some svg ->
  exists svg', svgRef (componentDidUpdate scaleLinear p c) = Some svg'.
Proof.
  intro Hs. destruct (propsSource p) as [[[d|] w] h] eqn:Hp.
  - rewrite (componentDidUpdate_draws p c d w h svg Hp Hs). simpl. eauto.
  - rewrite (componentDidUpdate_without_data p c w h Hp). simpl. eauto.
Qed.

Lemma updates_attached ps c svg :
  svgRef c = Some svg ->
  exists svg', svgRef (updates scaleLinear ps c) = Some svg'.
Proof.
  revert c svg. unfold updates.
  induction ps as [|p ps IH]; intros c svg Hs; simpl.
  - eauto.
  - destruct (componentDidUpdate_attached p c svg Hs) as [svg' Hs'].
    exact (IH _ svg' Hs').
Qed.

Lemma updates_without_data qs c :
  Forall (fun q => fst (fst (propsSource q)) = None) qs ->
  svgRef (updates scaleLinear qs c) = svgRef c /\
  (qs <> [] -> data (state (updates scaleLinear qs c)) = None).
Proof.
  unfold updates. intro H. revert c.
  induction H as [|q qs Hq _ IH]; intro c; simpl.
  - split; [reflexivity|congruence].
  - destruct (propsSource q) as [[d w] h] eqn:Hp. simpl in Hq. subst d.
    rewrite (componentDidUpdate_without_data q c w h Hp).
    destruct (IH {| state := mkState None (Number_of_undefined w)
                                     (Number_of_undefined h);
                    svgRef := svgRef c |}) as [IH1 IH2].
    split; [exact IH1|]. intros _.
    destruct qs as [|q' qs]; [reflexivity|].
    apply IH2. discriminate.
Qed.

(** X6. After any run of updates on an attached surface, the surface
    shows the drawing of the last props that carried a dataset, exactly as
    a fresh component updated once with them would show it; updates
    without a dataset that follow leave that drawing in place while the
    state no longer holds a dataset. *)
Theorem surface_shows_last_data ps p qs c svg d w h :
  svgRef c = Some svg ->
  propsSource p = (Some d, w, h) ->
  Forall (fun q => fst (fst (propsSource q)) = None) qs ->
  svgRef (updates scaleLinear (ps ++ p :: qs) c) =
    svgRef (componentDidUpdate scaleLinear p
              {| state := initialState; svgRef := Some [] |}) /\
  (qs <> [] ->
   data (state (updates scaleLinear (ps ++ p :: qs) c)) = None).
Proof.
  intros Hs Hp Hqs.
  assert (E : updates scaleLinear (ps ++ p :: qs) c =
              updates scaleLinear qs
                (componentDidUpdate scaleLinear p (updates scaleLinear ps c))).
  { unfold updates. now rewrite fold_left_app. }
  rewrite E.
  destruct (updates_attached ps c svg Hs) as [svg' Hs'].
  destruct (updates_without_data qs
              (componentDidUpdate scaleLinear p (updates scaleLinear ps c)) Hqs)
    as [H1 H2].
  split; [|exact H2].
  rewrite H1.
  rewrite (componentDidUpdate_draws p _ d w h svg' Hp Hs').
  now rewrite (componentDidUpdate_draws p
                 {| state := initialState; svgRef := Some [] |}
                 d w h [] Hp eq_refl).
Qed.

(** X7. Running [componentDidUpdate] again with the same props changes
    nothing: neither the state nor the surface. *)
Theorem componentDidUpdate_idempotent p c :
  componentDidUpdate scaleLinear p (componentDidUpdate scaleLinear p c) =
    componentDidUpdate scaleLinear p c.
Proof.
  destruct (propsSource p) as [[[d|] w] h] eqn:Hp.
  - destruct (svgRef c) as [svg|] eqn:Hs.
    + rewrite (componentDidUpdate_draws p c d w h svg Hp Hs).
      set (g := drawGroup scaleLinear d _ _).
      exact (componentDidUpdate_draws p
               {| state := mkState (Some d) (Number_of_undefined w)
                                   (Number_of_undefined h);
                  svgRef := Some [SvgG groupTransform g] |}
               d w h [SvgG groupTransform g] Hp eq_refl).
    + unfold componentDidUpdate, renderGraph. rewrite Hp. simpl.
      rewrite Hs. simpl. reflexivity.
  - now rewrite !(componentDidUpdate_without_data p _ w h Hp).
Qed.

(** X8. [componentDidMount] stores a size and nothing else: the dataset
    and the surface are as before, so a component fresh from its
    constructor has nothing drawn once mounted, also if [renderGraph]
    runs; and the next [componentDidUpdate] overrides what it stored. *)
Theorem componentDidMount_only_sizes p q c :
  data (state (componentDidMount p c)) = data (state c) /\
  svgRef (componentDidMount p c) = svgRef c /\
  (forall svg,
     renderGraph scaleLinear
       (componentDidMount p {| state := initialState; svgRef := svg |}) =
     componentDidMount p {| state := initialState; svgRef := svg |}) /\
  componentDidUpdate scaleLinear q (componentDidMount p c) =
    componentDidUpdate scaleLinear q c.
Proof.
  unfold componentDidMount, componentDidUpdate.
  destruct (propsSource p) as [[d w] h].
  destruct (propsSource q) as [[d' w'] h'].
  repeat split.
Qed.

End LifecycleFacts.

(** * The function component and the hosting page *)

Section HostFacts.

Variable scaleLinear : Number -> Number -> Number -> Number -> Number -> Number.

(** X9. The effect of the function component leaves on the surface what
    [renderGraph] of the class leaves for a state holding the same
    dataset and size, and what [componentDidUpdate] leaves when the props
    carry them in [args]. *)
Theorem effect_agrees_with_class args r :
  FC.effect scaleLinear args r =
    svgRef (renderGraph scaleLinear
              {| state := mkState (FC.data args) (FC.width args)
                                  (FC.height args);
                 svgRef := r |}) /\
  (forall a st pd pw ph,
     FC.data args = Some (Args.data a) ->
     FC.width args = Args.width a -> FC.height args = Args.height a ->
     FC.effect scaleLinear args r =
       svgRef (componentDidUpdate scaleLinear
                 {| Props.args := Some a; Props.data := pd;
                    Props.width := pw; Props.height := ph |}
                 {| state := st; svgRef := r |})).
Proof.
  assert (H : FC.effect scaleLinear args r =
    svgRef (renderGraph scaleLinear
              {| state := mkState (FC.data args) (FC.width args)
                                  (FC.height args);
                 svgRef := r |})).
  { unfold FC.effect, renderGraph, drawGroup. simpl.
    destruct (FC.data args) as [d|]; destruct r as [svg|]; reflexivity. }
  split; [exact H|].
  intros a st pd pw ph Hd Hw Hh. rewrite H.
  unfold componentDidUpdate, propsSource. simpl.
  now rewrite Hd, Hw, Hh.
Qed.

(** X10. The page shows the loading message until the fetch settles and
    never after; once it has settled it shows the graph, sized to the
    window less 40 by 100, when a dataset was decoded, and the error
    message when the fetch failed or decoded to [null]. *)
Theorem app_view_after_fetch W H :
  App.render W H App.initial = App.Message "Loading attention graph data..." /\
  (forall r s, App.loading (App.settle r s) = false) /\
  (forall r s,
     App.render W H (App.settle r s) <>
       App.Message "Loading attention graph data...") /\
  (forall r,
     App.render W H (App.settle r App.initial) =
       match r with
       | App.Fulfilled (Some d) =>
           App.Graph "Attention Graph Visualization"
                     {| FC.data := Some d;
                        FC.width := (W - 40)%float;
                        FC.height := (H - 100)%float |}
       | _ => App.Message "Error loading data"
       end).
Proof.
  split; [reflexivity|]. split; [now intros [j|] s|]. split.
  - intros [[d|]|] [[d'|] b]; simpl; discriminate.
  - now intros [[d|]|].
Qed.

(** X11. From a decoded dataset to the surface: the page hands the
    function component the dataset and the window size less 40 by 100,
    and the effect leaves one group holding a circle and a text per node
    of the grid and a line per resolvable edge, laid out for that size. *)
Theorem page_draws_dataset W H d s svg :
  exists args,
    App.render W H (App.settle (App.Fulfilled (Some d)) s) =
      App.Graph "Attention Graph Visualization" args /\
    FC.effect scaleLinear args (Some svg) =
      Some [SvgG "translate(20,20)"
              (map drawCircle
                   (gridNodes scaleLinear d (W - 40)%float (H - 100)%float) ++
               map drawLabel
                   (gridNodes scaleLinear d (W - 40)%float (H - 100)%float) ++
               map (edgeLine scaleLinear d (W - 40)%float (H - 100)%float)
                   (filter (resolvesb d) (attentionPatterns d)))].
Proof.
  eexists. split; [reflexivity|].
  unfold FC.effect. simpl.
  rewrite forEach_drawEdge, buildNodes_grid, edgeLines_filter.
  now rewrite <- app_assoc.
Qed.

End HostFacts.

(** ** Instances of the further properties *)

Lemma circle_and_text_of_node_witness :
  inGrid Sample.theCat 1 1 /\
  nth_error
    (drawn (renderGraph D3.scaleLinear_mid
              {| state := mkState (Some Sample.theCat) 300 200;
                 svgRef := Some [] |})) 3 =
    Some (SvgCircle 260 160 5 "#e5e7eb") /\
  nth_error
    (drawn (renderGraph D3.scaleLinear_mid
              {| state := mkState (Some Sample.theCat) 300 200;
                 svgRef := Some [] |})) 7 =
    Some (SvgText 260 150 "middle" "12px" "L1-cat").
Proof.
  assert (Hg : inGrid Sample.theCat 1 1) by (unfold inGrid; simpl; lia).
  split; [exact Hg|].
  exact (circle_and_text_of_node D3.scaleLinear_mid Sample.theCat 300 200
           [] 1 1 Hg).
Defined.

Lemma nodes_aligned_witness :
  In (nodeAt D3.scaleLinear_mid Sample.theCat 300 200 0 1)
     (buildNodes D3.scaleLinear_mid Sample.theCat 300 200) /\
  In (nodeAt D3.scaleLinear_mid Sample.theCat 300 200 1 1)
     (buildNodes D3.scaleLinear_mid Sample.theCat 300 200) /\
  x (nodeAt D3.scaleLinear_mid Sample.theCat 300 200 0 1) =
  x (nodeAt D3.scaleLinear_mid Sample.theCat 300 200 1 1).
Proof.
  assert (H1 : In (nodeAt D3.scaleLinear_mid Sample.theCat 300 200 0 1)
                  (buildNodes D3.scaleLinear_mid Sample.theCat 300 200)).
  { rewrite buildNodes_grid. apply In_gridNodes.
    split; [unfold inGrid; simpl; lia | reflexivity]. }
  assert (H2 : In (nodeAt D3.scaleLinear_mid Sample.theCat 300 200 1 1)
                  (buildNodes D3.scaleLinear_mid Sample.theCat 300 200)).
  { rewrite buildNodes_grid. apply In_gridNodes.
    split; [unfold inGrid; simpl; lia | reflexivity]. }
  split; [exact H1|]. split; [exact H2|].
  exact (proj1 (proj1 (nodes_aligned D3.scaleLinear_mid Sample.theCat 300 200
                         _ _ H1 H2) eq_refl)).
Defined.

Lemma surface_shows_last_data_witness :
  propsSource (Scenario.withArgs Sample.theCat 300 200) =
    (Some Sample.theCat, Some 300%float, Some 200%float) /\
  fst (fst (propsSource (Scenario.sizeOnly 640 480))) = None /\
  svgRef (updates D3.scaleLinear_mid
            [ Scenario.withArgs Sample.onePast 300 200;
              Scenario.withArgs Sample.theCat 300 200;
              Scenario.sizeOnly 640 480 ]
            {| state := initialState; svgRef := Some Sample.earlier |}) =
    svgRef (componentDidUpdate D3.scaleLinear_mid
              (Scenario.withArgs Sample.theCat 300 200) Scenario.fresh) /\
  data (state (updates D3.scaleLinear_mid
                 [ Scenario.withArgs Sample.onePast 300 200;
                   Scenario.withArgs Sample.theCat 300 200;
                   Scenario.sizeOnly 640 480 ]
                 {| state := initialState; svgRef := Some Sample.earlier |}))
    = None.
Proof.
  assert (Hq : Forall (fun q => fst (fst (propsSource q)) = None)
                      [Scenario.sizeOnly 640 480])
    by (constructor; [reflexivity | constructor]).
  destruct (surface_shows_last_data D3.scaleLinear_mid
              [Scenario.withArgs Sample.onePast 300 200]
              (Scenario.withArgs Sample.theCat 300 200)
              [Scenario.sizeOnly 640 480]
              {| state := initialState; svgRef := Some Sample.earlier |}
              Sample.earlier Sample.theCat (Some 300%float) (Some 200%float)
              eq_refl eq_refl Hq) as [Hsurf Hdata].
  split; [reflexivity|]. split; [reflexivity|].
  split; [exact Hsurf|]. apply Hdata. discriminate.
Defined.

(** * What the drawing depends on *)

Section Dependence.

Variable scaleLinear : Number -> Number -> Number -> Number -> Number -> Number.

Lemma gridNodes_same_labels d e w h :
  numLayers d = numLayers e -> numTokens d = numTokens e ->
  (forall t, 0 <= t < numTokens d -> nodeLabel d t = nodeLabel e t) ->
  gridNodes scaleLinear d w h = gridNodes scaleLinear e w h.
Proof.
  intros Hl Ht Hlab. rewrite !gridNodes_map, <- Hl, <- Ht.
  apply map_ext_in. intros [l t] Hin. simpl.
  apply in_prod_iff in Hin as [_ Hin]. apply In_indices in Hin.
  unfold nodeAt, xScale, yScale. now rewrite Hl, Ht, (Hlab t Hin).
Qed.

Lemma array_get_app_within {A : Type} (ts extra : list A) t :
  t < Z.of_nat (length ts) -> array_get (ts ++ extra) t = array_get ts t.
Proof.
  intro H. unfold array_get. destruct (t <? 0) eqn:E; [reflexivity|].
  apply Z.ltb_ge in E. apply nth_error_app1. lia.
Qed.

(** X12. Labels beyond the last token column are never read: a dataset
    whose [tokens] has at least [numTokens] entries is drawn exactly as
    the same dataset with further entries appended to [tokens]. *)
Theorem extra_tokens_ignored nl nt ts extra ps w h svg :
  nt <= Z.of_nat (length ts) ->
  svgRef (renderGraph scaleLinear
            {| state := mkState (Some (mkGraphData nl nt (Some ts) ps)) w h;
               svgRef := svg |}) =
  svgRef (renderGraph scaleLinear
            {| state :=
                 mkState (Some (mkGraphData nl nt (Some (ts ++ extra)) ps))
                         w h;
               svgRef := svg |}).
Proof.
  intro Hlen. unfold renderGraph. simpl.
  destruct svg as [svg|]; [|reflexivity].
  simpl. do 3 f_equal.
  rewrite !drawGroup_eq. simpl.
  rewrite (gridNodes_same_labels
             (mkGraphData nl nt (Some ts) ps)
             (mkGraphData nl nt (Some (ts ++ extra)) ps) w h);
    try reflexivity.
  intros t Ht. unfold nodeLabel. simpl in *.
  symmetry. apply array_get_app_within. lia.
Qed.

Lemma In_drawCircle d w h svg l t :
  inGrid d l t ->
  In (SvgCircle (xScale scaleLinear d w t) (yScale scaleLinear d h l)
                5 "#e5e7eb")
     (drawn (renderGraph scaleLinear
               {| state := mkState (Some d) w h; svgRef := Some svg |})).
Proof.
  intro Hg. rewrite drawn_runs, in_app_iff. left.
  change (SvgCircle _ _ _ _)
    with (drawCircle (nodeAt scaleLinear d w h l t)).
  apply in_map. apply In_gridNodes. now split.
Qed.

(** X13. Every line joins two circles of the drawing: the line of an
    edge with both endpoints in the grid starts at the centre of the
    circle of its source node and ends at the centre of the circle of its
    target node. *)
Theorem line_joins_circles d w h svg p :
  In p (attentionPatterns d) -> resolves d p ->
  let out := drawn (renderGraph scaleLinear
                      {| state := mkState (Some d) w h; svgRef := Some svg |}) in
  let x1 := xScale scaleLinear d w (sourceToken p) in
  let y1 := yScale scaleLinear d h (sourceLayer p) in
  let x2 := xScale scaleLinear d w (destToken p) in
  let y2 := yScale scaleLinear d h (destLayer p) in
  In (SvgLine x1 y1 x2 y2 "#3B82F6" (weight p * 2)%float (weight p)) out /\
  In (SvgCircle x1 y1 5 "#e5e7eb") out /\
  In (SvgCircle x2 y2 5 "#e5e7eb") out.
Proof.
  intros Hp [Hs Ht] out x1 y1 x2 y2. subst out x1 y1 x2 y2.
  split; [|split].
  - rewrite drawn_runs, !in_app_iff. right. right.
    change (SvgLine _ _ _ _ _ _ _) with (edgeLine scaleLinear d w h p).
    apply in_map. apply filter_In. split; [exact Hp|].
    apply resolvesb_spec. now split.
  - now apply In_drawCircle.
  - now apply In_drawCircle.
Qed.

(** X14. The size of the surface moves elements and does nothing else:
    at any two sizes a dataset gives the same sequence of kinds of
    elements, the same texts, and the same stroke widths and opacities. *)
Theorem size_only_moves_elements d w h w' h' svg svg' :
  let out := drawn (renderGraph scaleLinear
                      {| state := mkState (Some d) w h; svgRef := Some svg |}) in
  let out' := drawn (renderGraph scaleLinear
                       {| state := mkState (Some d) w' h';
                          svgRef := Some svg' |}) in
  map (fun e => (isCircle e, isText e, isLine e)) out =
  map (fun e => (isCircle e, isText e, isLine e)) out' /\
  map contentOf out = map contentOf out' /\
  map strokeWidthOf out = map strokeWidthOf out' /\
  map opacityOf out = map opacityOf out'.
Proof.
  intros out out'. subst out out'. rewrite !drawn_runs, !gridNodes_map.
  repeat split; rewrite !map_app, !map_map; reflexivity.
Qed.

End Dependence.

Lemma extra_tokens_ignored_witness :
  2 <= Z.of_nat (length ["The"; "cat"]%string) /\
  svgRef (renderGraph D3.scaleLinear_mid
            {| state :=
                 mkState (Some (mkGraphData 2 2 (Some ["The"; "cat"]%string) []))
                         300 200;
               svgRef := Some [] |}) =
  svgRef (renderGraph D3.scaleLinear_mid
            {| state :=
                 mkState (Some (mkGraphData 2 2
                                  (Some ["The"; "cat"; "sat"]%string) []))
                         300 200;
               svgRef := Some [] |}).
Proof.
  assert (H : 2 <= Z.of_nat (length ["The"; "cat"]%string)) by (simpl; lia).
  split; [exact H|].
  exact (extra_tokens_ignored D3.scaleLinear_mid 2 2
           ["The"; "cat"]%string ["sat"]%string [] 300 200 (Some []) H).
Defined.

Lemma line_joins_circles_witness :
  resolves Sample.theCat (Sample.edge 1 1 0 0 0.8 0) /\
  In (SvgCircle 260 160 5 "#e5e7eb")
     (drawn (renderGraph D3.scaleLinear_mid
               {| state := mkState (Some Sample.theCat) 300 200;
                  svgRef := Some [] |})) /\
  In (SvgCircle 0 0 5 "#e5e7eb")
     (drawn (renderGraph D3.scaleLinear_mid
               {| state := mkState (Some Sample.theCat) 300 200;
                  svgRef := Some [] |})).
Proof.
  assert (Hr : resolves Sample.theCat (Sample.edge 1 1 0 0 0.8 0))
    by (unfold resolves, inGrid; simpl; lia).
  assert (Hin : In (Sample.edge 1 1 0 0 0.8 0)
                   (attentionPatterns Sample.theCat)) by (now left).
  split; [exact Hr|].
  exact (proj2 (line_joins_circles D3.scaleLinear_mid Sample.theCat 300 200
                  [] (Sample.edge 1 1 0 0 0.8 0) Hin Hr)).
Defined.
